(** * Barcode / QR code generator: a shallow embedding of [main.py]

    The program is a Streamlit page with two adapters, [generate_barcode]
    and [generate_qrcode], around the [barcode], [qrcode] and [PIL]
    packages, and an orchestrator, [main].

    The three packages are not part of the repository: they are the
    parameters of the development (class [Environment]).  Every call that the
    source wraps in [try] is a function into [result], so it may raise;
    calls the source leaves unguarded ([image.save], the [st.*] widgets)
    are total.  What the program does to the outside is recorded as a list
    of events, in program order: each library call with its arguments and
    each Streamlit call.  A [Session] value stands for whatever a script
    could keep from one run to the next (module globals,
    [st.session_state]); it is threaded through every computation. *)

From Stdlib Require Import String Ascii List ZArith Bool Lia Floats Uint63.
Import ListNotations.
Local Open Scope string_scope.

(** ** Python values *)

Definition bytes := list Byte.byte.

(** An exception instance: the name of its class and [str(e)]. *)
Record exn := Exn { exn_class : string; exn_msg : string }.

Inductive result (A : Type) :=
| Ok (a : A)
| Raise (e : exn).
Arguments Ok {A} a.
Arguments Raise {A} e.

(** [int] and [float], the two types of number a [scale] can be. *)
Inductive pynum :=
| PyInt (z : Z)
| PyFloat (f : float).

(** [float(z)]: round to nearest, ties to even; an [int] beyond the range
    of a double raises [OverflowError]. *)
Definition float_of_int (z : Z) : result float :=
  let f := SF2Prim (binary_normalize prec emax z 0 false) in
  if is_infinity f
  then Raise (Exn "OverflowError" "int too large to convert to float")
  else Ok f.

(** [a * b] on numbers: exact on two [int]s, binary64 otherwise, the [int]
    operand converted first. *)
Definition py_mul (a b : pynum) : result pynum :=
  match a, b with
  | PyInt x, PyInt y => Ok (PyInt (x * y))
  | PyFloat x, PyFloat y => Ok (PyFloat (x * y))
  | PyFloat x, PyInt y =>
      match float_of_int y with
      | Ok fy => Ok (PyFloat (x * fy))
      | Raise e => Raise e
      end
  | PyInt x, PyFloat y =>
      match float_of_int x with
      | Ok fx => Ok (PyFloat (fx * y))
      | Raise e => Raise e
      end
  end.

Arguments float_of_int : simpl never.
Arguments py_mul : simpl never.

(** The literal [0.2] is the double nearest to one fifth. *)
Definition float_0_2 : float := 0x1.999999999999ap-3%float.

(** [io.BytesIO]: the contents and the stream position. *)
Record BytesIO := { bio_data : bytes; bio_pos : nat }.

Definition BytesIO_new : BytesIO := {| bio_data := []; bio_pos := 0 |}.

(** Writing [b] at the current position: what lies before the position is
    kept, [b] replaces what follows as far as it reaches. *)
Definition BytesIO_write (buf : BytesIO) (b : bytes) : BytesIO :=
  {| bio_data := (firstn (bio_pos buf) (bio_data buf) ++ b
                  ++ skipn (bio_pos buf + length b) (bio_data buf))%list;
     bio_pos := bio_pos buf + length b |}.

Definition BytesIO_seek (buf : BytesIO) (pos : nat) : BytesIO :=
  {| bio_data := bio_data buf; bio_pos := pos |}.

(** What a reader gets from the current position on. *)
Definition BytesIO_read (buf : BytesIO) : bytes :=
  skipn (bio_pos buf) (bio_data buf).

Definition BytesIO_getvalue (buf : BytesIO) : bytes := bio_data buf.

(** ** Payloads *)

Definition chars (s : string) : list ascii := list_ascii_of_string s.

Definition is_digit (c : ascii) : bool :=
  (48 <=? nat_of_ascii c)%nat && (nat_of_ascii c <=? 57)%nat.

(** A payload made of decimal digits only. *)
Definition all_digits (s : string) : bool := forallb is_digit (chars s).

(** A payload with a character outside an alphabet. *)
Definition outside (alphabet : ascii -> bool) (s : string) : bool :=
  existsb (fun c => negb (alphabet c)) (chars s).

(** ** The environment of the script: the third-party packages *)

(** [qrcode.constants.ERROR_CORRECT_*]. *)
Inductive error_correction :=
| ERROR_CORRECT_L
| ERROR_CORRECT_M
| ERROR_CORRECT_Q
| ERROR_CORRECT_H.

(** The [options] dictionary of a barcode writer, in insertion order. *)
Definition options := list (string * pynum).

Class Environment := {
  (** what the interpreter keeps from one run of the script to the next *)
  Session : Type;
  (** classes returned by [barcode.get_barcode_class], [ImageWriter]
      instances, barcode instances, [qrcode.QRCode] instances, images *)
  BarcodeClass : Type;
  Writer : Type;
  BarcodeObject : Type;
  QRCode : Type;
  Image : Type;
  (** [barcode.get_barcode_class(name)] *)
  get_barcode_class : string -> result BarcodeClass;
  (** [ImageWriter()] *)
  ImageWriter : result Writer;
  (** [barcode_class(data, writer=w)] *)
  barcode_class_call : BarcodeClass -> string -> Writer -> result BarcodeObject;
  (** [barcode_instance.write(buffer, options=o)]: the bytes it writes *)
  barcode_write : BarcodeObject -> options -> result bytes;
  (** [Image.open(buffer)], from the bytes the buffer yields *)
  Image_open : bytes -> result Image;
  (** [image.save(buffer, format=f)]: the bytes it writes *)
  Image_save : Image -> string -> bytes;
  (** [qrcode.QRCode(version, error_correction, box_size, border)] *)
  qrcode_QRCode : Z -> error_correction -> Z -> Z -> result QRCode;
  (** [qr.add_data(data)], [qr.make(fit)]: the object after the call *)
  qr_add_data : QRCode -> string -> result QRCode;
  qr_make : QRCode -> bool -> result QRCode;
  (** [qr.make_image(fill_color, back_color)] *)
  qr_make_image : QRCode -> string -> string -> result Image;
  (** the attributes the module [barcode.errors] defines *)
  barcode_errors : string -> bool
}.

(** ** What one press of a widget gives the script *)

Inductive code_kind := Barcode | QR_Code.

Definition code_kind_label (k : code_kind) : string :=
  match k with
  | Barcode => "Barcode"
  | QR_Code => "QR Code"
  end.

Inductive symbology := code128 | code39 | ean13 | ean8 | upca | pzn7.

Definition symbology_name (s : symbology) : string :=
  match s with
  | code128 => "code128"
  | code39 => "code39"
  | ean13 => "ean13"
  | ean8 => "ean8"
  | upca => "upca"
  | pzn7 => "pzn7"
  end.

Definition code_types : list string := ["Barcode"; "QR Code"].

Definition barcode_types : list string :=
  ["code128"; "code39"; "ean13"; "ean8"; "upca"; "pzn7"].

(** The state of the form during one run of the script: the radio choice,
    the text typed, whether this run follows a press of the button, and the
    choice of the select box. *)
Record Form := {
  form_code_type : code_kind;
  form_data : string;
  form_generate : bool;
  form_barcode_type : symbology
}.

Section Program.

Context {L : Environment}.

(** ** Events *)

Inductive event :=
| St_title (body : string)
| St_radio (label : string) (opts : list string)
| St_text_input (label value : string)
| St_button (label : string)
| St_selectbox (label : string) (opts : list string)
| St_warning (body : string)
| St_error (body : string)
| St_image (image : bytes) (caption : string) (use_container_width : bool)
| St_download_button (label : string) (data : bytes) (file_name mime : string)
| Call_get_barcode_class (name : string)
| Call_ImageWriter
| Call_barcode_class (c : BarcodeClass) (data : string) (w : Writer)
| Call_write (b : BarcodeObject) (o : options)
| Call_Image_open (b : bytes)
| Call_Image_save (i : Image) (format : string)
| Call_QRCode (version : Z) (ec : error_correction) (box_size border : Z)
| Call_add_data (q : QRCode) (data : string)
| Call_make (q : QRCode) (fit : bool)
| Call_make_image (q : QRCode) (fill_color back_color : string).

(** ** Computations

    A computation starts from a session and gives the events it caused, a
    value or a raised exception, and the session it leaves. *)

Definition M (A : Type) : Type := Session -> list event * result A * Session.

Definition ret {A} (a : A) : M A := fun s => ([], Ok a, s).

Definition raise {A} (e : exn) : M A := fun s => ([], Raise e, s).

Definition bind {A B} (m : M A) (k : A -> M B) : M B :=
  fun s =>
    match m s with
    | (evs, Ok a, s1) =>
        match k a s1 with
        | (evs', r, s2) => ((evs ++ evs')%list, r, s2)
        end
    | (evs, Raise e, s1) => (evs, Raise e, s1)
    end.

(** [try: body / except ... as e: handler e]. *)
Definition try_except {A} (body : M A) (handler : exn -> M A) : M A :=
  fun s =>
    match body s with
    | (evs, Ok a, s1) => (evs, Ok a, s1)
    | (evs, Raise e, s1) =>
        match handler e s1 with
        | (evs', r, s2) => ((evs ++ evs')%list, r, s2)
        end
    end.

Definition emit (e : event) : M unit := fun s => ([e], Ok tt, s).

(** A library call: recorded, then its value or its exception. *)
Definition call {A} (e : event) (r : result A) : M A := fun s => ([e], r, s).

(** An expression of the script itself that may raise. *)
Definition eval {A} (r : result A) : M A := fun s => ([], r, s).

End Program.

Declare Scope py_scope.
Delimit Scope py_scope with py.
Notation "x <- m ;; k" := (bind m (fun x => k))
  (at level 100, m at next level, right associativity) : py_scope.
Notation "m ;; k" := (bind m (fun _ => k))
  (at level 100, right associativity) : py_scope.
Local Open Scope py_scope.

Section Adapters.

Context {L : Environment}.

Definition st_error (body : string) : M unit := emit (St_error body).

(** One clause [except barcode.errors.<name> as e: handler]: the class is
    looked up when the clause is reached, and a module without the
    attribute raises [AttributeError] there.  The classes of
    [barcode.errors] that the source names are taken to be unrelated by
    inheritance, so an exception matches the clause of its own class. *)
Definition except_barcode_error {A} (name : string) (e : exn)
    (handler next : M A) : M A :=
  if barcode_errors name then
    if String.eqb (exn_class e) name then handler else next
  else
    raise (Exn "AttributeError"
             ("module 'barcode.errors' has no attribute '" ++ name ++ "'")).

(** The four messages of [generate_barcode], one per [except] clause. *)
Definition msg_not_supported (barcode_type : string) : string :=
  "Error: Barcode type '" ++ barcode_type ++ "' is not supported.".

Definition msg_invalid_data (barcode_type str_e : string) : string :=
  "Error: Invalid data for barcode type '" ++ barcode_type ++ "': " ++ str_e.

Definition msg_invalid_characters (barcode_type str_e : string) : string :=
  "Error: Invalid characters in data for barcode type '" ++ barcode_type
  ++ "': " ++ str_e.

Definition msg_creating_barcode (str_e : string) : string :=
  "Error creating barcode: " ++ str_e.

(** The [try] suite of [generate_barcode]. *)
Definition generate_barcode_try (data barcode_type : string) (scale : pynum)
    : M (option Image) :=
  barcode_class <- call (Call_get_barcode_class barcode_type)
                        (get_barcode_class barcode_type) ;;
  writer <- call Call_ImageWriter ImageWriter ;;
  barcode_instance <- call (Call_barcode_class barcode_class data writer)
                           (barcode_class_call barcode_class data writer) ;;
  let buffer := BytesIO_new in
  module_width <- eval (py_mul (PyFloat float_0_2) scale) ;;
  module_height <- eval (py_mul (PyInt 10%Z) scale) ;;
  let opts := [("module_width", module_width);
               ("module_height", module_height)] in
  written <- call (Call_write barcode_instance opts)
                  (barcode_write barcode_instance opts) ;;
  let buffer := BytesIO_write buffer written in
  let buffer := BytesIO_seek buffer 0 in
  image <- call (Call_Image_open (BytesIO_read buffer))
                (Image_open (BytesIO_read buffer)) ;;
  ret (Some image).

(** Its [except] clauses, in the order of the source. *)
Definition generate_barcode_except (barcode_type : string) (e : exn)
    : M (option Image) :=
  except_barcode_error "BarcodeNotFoundError" e
    (st_error (msg_not_supported barcode_type) ;; ret None)
    (except_barcode_error "NumberError" e
       (st_error (msg_invalid_data barcode_type (exn_msg e)) ;; ret None)
       (except_barcode_error "IllegalCharacterError" e
          (st_error (msg_invalid_characters barcode_type (exn_msg e)) ;;
           ret None)
          (st_error (msg_creating_barcode (exn_msg e)) ;; ret None))).

Definition generate_barcode (data barcode_type : string) (scale : pynum)
    : M (option Image) :=
  try_except (generate_barcode_try data barcode_type scale)
             (generate_barcode_except barcode_type).

Definition msg_creating_qrcode (str_e : string) : string :=
  "Error creating QR code: " ++ str_e.

(** The [try] suite of [generate_qrcode]. *)
Definition generate_qrcode_try (data : string) (box_size : Z)
    : M (option Image) :=
  qr <- call (Call_QRCode 1%Z ERROR_CORRECT_L box_size 2%Z)
             (qrcode_QRCode 1%Z ERROR_CORRECT_L box_size 2%Z) ;;
  qr <- call (Call_add_data qr data) (qr_add_data qr data) ;;
  qr <- call (Call_make qr true) (qr_make qr true) ;;
  img <- call (Call_make_image qr "black" "white")
              (qr_make_image qr "black" "white") ;;
  ret (Some img).

Definition generate_qrcode (data : string) (box_size : Z) : M (option Image) :=
  try_except (generate_qrcode_try data box_size)
             (fun e => st_error (msg_creating_qrcode (exn_msg e)) ;; ret None).

(** ** The orchestrator *)

Definition st_radio (label : string) (opts : list string) (f : Form) : M string :=
  emit (St_radio label opts) ;; ret (code_kind_label (form_code_type f)).

Definition st_text_input (label value : string) (f : Form) : M string :=
  emit (St_text_input label value) ;; ret (form_data f).

Definition st_button (label : string) (f : Form) : M bool :=
  emit (St_button label) ;; ret (form_generate f).

Definition st_selectbox (label : string) (opts : list string) (f : Form)
    : M string :=
  emit (St_selectbox label opts) ;; ret (symbology_name (form_barcode_type f)).

(** [image.save(buffered, format="PNG")] on a fresh buffer, then
    [buffered.getvalue()]. *)
Definition save_png (image : Image) : M bytes :=
  let buffered := BytesIO_new in
  written <- call (Call_Image_save image "PNG") (Ok (Image_save image "PNG")) ;;
  let buffered := BytesIO_write buffered written in
  ret (BytesIO_getvalue buffered).

(** [main], over the two adapters it calls.  The widgets answer from the
    form; [if not data] tests for the empty string, and [if image] for an
    image rather than [None], an image object being true in a condition. *)
Definition main_with
    (gen_barcode : string -> string -> pynum -> M (option Image))
    (gen_qrcode : string -> Z -> M (option Image))
    (f : Form) : M unit :=
  emit (St_title "Barcode/QR Code Generator") ;;
  code_type <- st_radio "Select code type:" code_types f ;;
  data <- st_text_input "Enter data:" "" f ;;
  generate <- st_button "Generate" f ;;
  if generate : bool then
    if String.eqb data "" then
      emit (St_warning "Please enter data.")
    else
      r <- (if String.eqb code_type "Barcode" then
              barcode_type <- st_selectbox "Select barcode type:" barcode_types f ;;
              image <- gen_barcode data barcode_type (PyInt 1%Z) ;;
              ret (image, "barcode.png")
            else
              image <- gen_qrcode data 2%Z ;;
              ret (image, "qrcode.png")) ;;
      let '(image, filename) := r in
      match image with
      | Some image =>
          img_bytes <- save_png image ;;
          emit (St_image img_bytes ("Generated " ++ code_type) true) ;;
          img_str <- save_png image ;;
          emit (St_download_button ("Download " ++ code_type ++ " (PNG)")
                  img_str filename "image/png")
      | None =>
          emit (St_error "Code generation failed. See error messages above.")
      end
  else
    ret tt.

Definition main : Form -> M unit := main_with generate_barcode generate_qrcode.

End Adapters.

(** ** What is observed of a run *)

Section Observations.

Context {L : Environment}.

(** The events, the outcome and the final session of a finished run. *)
Definition events_of {A} (x : list event * result A * Session) : list event :=
  fst (fst x).

Definition outcome_of {A} (x : list event * result A * Session) : result A :=
  snd (fst x).

Definition session_of {A} (x : list event * result A * Session) : Session :=
  snd x.

(** Events by which a download is offered. *)
Definition is_download (e : event) : bool :=
  match e with
  | St_download_button _ _ _ _ => true
  | _ => false
  end.

(** The fixed policy of the QR adapter, read on the calls it makes: the
    constructor gets version 1, level L and border 2, and [make] is asked
    to fit. *)
Definition error_correction_eqb (a b : error_correction) : bool :=
  match a, b with
  | ERROR_CORRECT_L, ERROR_CORRECT_L
  | ERROR_CORRECT_M, ERROR_CORRECT_M
  | ERROR_CORRECT_Q, ERROR_CORRECT_Q
  | ERROR_CORRECT_H, ERROR_CORRECT_H => true
  | _, _ => false
  end.

Definition follows_qr_policy (e : event) : bool :=
  match e with
  | Call_QRCode version ec _ border =>
      (version =? 1)%Z && error_correction_eqb ec ERROR_CORRECT_L
      && (border =? 2)%Z
  | Call_make _ fit => fit
  | _ => true
  end.

(** Every event of a computation satisfies [P]. *)
Definition all_events (P : event -> bool) {A} (m : M A) : Prop :=
  forall s, forallb P (events_of (m s)) = true.

(** What [main] does with the result of an adapter: an image is saved as
    PNG and shown, then saved again and offered under [filename]; [None]
    gives the closing error message. *)
Definition render_events (image : option Image) (code_type filename : string)
    : list event :=
  match image with
  | Some img =>
      [Call_Image_save img "PNG";
       St_image (Image_save img "PNG") ("Generated " ++ code_type) true;
       Call_Image_save img "PNG";
       St_download_button ("Download " ++ code_type ++ " (PNG)")
         (Image_save img "PNG") filename "image/png"]
  | None => [St_error "Code generation failed. See error messages above."]
  end.

(** The downloads that a run offers after an adapter returned [image]. *)
Definition offered (image : option Image) (code_type filename : string)
    : list event :=
  match image with
  | Some img =>
      [St_download_button ("Download " ++ code_type ++ " (PNG)")
         (Image_save img "PNG") filename "image/png"]
  | None => []
  end.

Definition select_events : list event :=
  [St_selectbox "Select barcode type:" barcode_types].

(** The four calls of [generate_qrcode] into the package, composed. *)
Definition qr_pipeline (data : string) (box_size : Z) : result Image :=
  match qrcode_QRCode 1%Z ERROR_CORRECT_L box_size 2%Z with
  | Raise e => Raise e
  | Ok q0 =>
      match qr_add_data q0 data with
      | Raise e => Raise e
      | Ok q1 =>
          match qr_make q1 true with
          | Raise e => Raise e
          | Ok q2 => qr_make_image q2 "black" "white"
          end
      end
  end.

(** Calls into the barcode package and into [PIL] on its behalf, calls
    into the QR package, and the kinds of Streamlit event that the
    properties below count. *)
Definition is_barcode_call (e : event) : bool :=
  match e with
  | Call_get_barcode_class _ | Call_ImageWriter | Call_barcode_class _ _ _
  | Call_write _ _ | Call_Image_open _ => true
  | _ => false
  end.

Definition is_qr_call (e : event) : bool :=
  match e with
  | Call_QRCode _ _ _ _ | Call_add_data _ _ | Call_make _ _
  | Call_make_image _ _ _ => true
  | _ => false
  end.

Definition is_error (e : event) : bool :=
  match e with
  | St_error _ => true
  | _ => false
  end.

Definition is_selectbox (e : event) : bool :=
  match e with
  | St_selectbox _ _ => true
  | _ => false
  end.

Definition is_warning (e : event) : bool :=
  match e with
  | St_warning _ => true
  | _ => false
  end.

(** What each adapter may cause. *)
Definition barcode_side (e : event) : bool := is_barcode_call e || is_error e.

Definition qr_side (e : event) : bool := is_qr_call e || is_error e.

Definition closing_error : event :=
  St_error "Code generation failed. See error messages above.".

(** The widgets that every run draws before it looks at the button. *)
Definition form_events : list event :=
  [St_title "Barcode/QR Code Generator";
   St_radio "Select code type:" code_types;
   St_text_input "Enter data:" "";
   St_button "Generate"].

End Observations.

(** ** A reference environment

    A stand-in for the three packages, on which the script runs by
    computation.  It follows the packages where the script can tell:

    - [barcode.errors] defines [BarcodeError], [IllegalCharacterError],
      [BarcodeNotFoundError], [NumberOfDigitsError] and
      [WrongCountryCodeError]; it has no [NumberError].
    - Of the names that [get_barcode_class] knows, the stand-in keeps
      "code128", "code39", "ean13", "ean8", "upca" and "pzn"; the class
      [PZN7] is registered as "pzn", and "pzn7" is not a name.
    - The numeric classes cut the payload to their number of digits, raise
      [IllegalCharacterError] unless what is left is digits only, and
      [NumberOfDigitsError] when it is too short.  Code 39 puts the
      payload in upper case before it checks the characters.
    - A QR code holds at most 7089 digits, 4296 characters of the
      alphanumeric set or 2953 other bytes (version 40, level L).

    An image is kept as the bytes of its file: the PNG signature followed
    by the text encoded. *)

Module Reference.

(** [s.isdigit()] on ASCII text: not empty, digits only. *)
Definition isdigit (s : string) : bool :=
  negb (String.eqb s "") && all_digits s.

(** [s[:n]]. *)
Definition prefix (n : nat) (s : string) : string := substring 0 n s.

Definition upper_char (c : ascii) : ascii :=
  if (97 <=? nat_of_ascii c)%nat && (nat_of_ascii c <=? 122)%nat
  then ascii_of_nat (nat_of_ascii c - 32)
  else c.

(** [s.upper()] on ASCII text. *)
Fixpoint upper (s : string) : string :=
  match s with
  | EmptyString => EmptyString
  | String c s' => String (upper_char c) (upper s')
  end.

Definition code39_chars : list ascii :=
  chars "0123456789ABCDEFGHIJKLMNOPQRSTUVWXYZ-. $/+%".

Definition in_code39 (c : ascii) : bool := existsb (Ascii.eqb c) code39_chars.

Definition in_code128 (c : ascii) : bool := (nat_of_ascii c <? 128)%nat.

(** The names that [get_barcode_class] knows, with their classes. *)
Definition registry : list (string * symbology) :=
  [("code128", code128); ("code39", code39); ("ean13", ean13);
   ("ean8", ean8); ("upca", upca); ("pzn", pzn7)].

Definition ref_get_barcode_class (name : string) : result symbology :=
  match find (fun entry => String.eqb (fst entry) name) registry with
  | Some entry => Ok (snd entry)
  | None =>
      Raise (Exn "BarcodeNotFoundError"
               ("The barcode '" ++ name ++ "' is not known."))
  end.

(** A numeric class of [n] digits (the check digit not counted). *)
Definition ref_numeric (sym : symbology) (n : nat) (data : string)
    : result (symbology * string) :=
  let base := prefix n data in
  if negb (isdigit base) then
    Raise (Exn "IllegalCharacterError" "illegal character in the payload")
  else if (String.length base <? n)%nat then
    Raise (Exn "NumberOfDigitsError" "wrong number of digits")
  else Ok (sym, base).

Definition ref_barcode_class_call (sym : symbology) (data : string) (w : unit)
    : result (symbology * string) :=
  match sym with
  | ean13 => ref_numeric ean13 12 data
  | ean8 => ref_numeric ean8 7 data
  | upca => ref_numeric upca 11 data
  | pzn7 => ref_numeric pzn7 6 data
  | code39 =>
      if outside in_code39 (upper data) then
        Raise (Exn "IllegalCharacterError" "illegal character in the payload")
      else Ok (code39, upper data)
  | code128 =>
      if outside in_code128 data then
        Raise (Exn "IllegalCharacterError" "illegal character in the payload")
      else Ok (code128, data)
  end.

Definition png_signature : bytes :=
  [Byte.x89; Byte.x50; Byte.x4e; Byte.x47; Byte.x0d; Byte.x0a; Byte.x1a; Byte.x0a].

Fixpoint starts_with (p b : bytes) : bool :=
  match p, b with
  | [], _ => true
  | x :: p', y :: b' => Byte.eqb x y && starts_with p' b'
  | _ :: _, [] => false
  end.

Definition ref_render (payload : string) : bytes :=
  (png_signature ++ list_byte_of_string payload)%list.

Definition ref_Image_open (b : bytes) : result bytes :=
  if starts_with png_signature b then Ok b
  else Raise (Exn "UnidentifiedImageError" "cannot identify image file").

Record ref_qr := {
  ref_version : Z;
  ref_error_correction : error_correction;
  ref_box_size : Z;
  ref_border : Z;
  ref_payload : string
}.

Definition ref_QRCode (version : Z) (ec : error_correction) (box_size border : Z)
    : result ref_qr :=
  if (box_size <=? 0)%Z then Raise (Exn "ValueError" "Invalid box size")
  else Ok {| ref_version := version; ref_error_correction := ec;
             ref_box_size := box_size; ref_border := border;
             ref_payload := "" |}.

Definition ref_add_data (q : ref_qr) (data : string) : result ref_qr :=
  Ok {| ref_version := ref_version q;
        ref_error_correction := ref_error_correction q;
        ref_box_size := ref_box_size q; ref_border := ref_border q;
        ref_payload := ref_payload q ++ data |}.

(** The capacity of the largest symbol for digits. *)
Definition qr_capacity : Z := 7089.

Definition qr_alphanumeric : list ascii :=
  chars "0123456789ABCDEFGHIJKLMNOPQRSTUVWXYZ $%*+-./:".

(** The capacity of the largest symbol for a payload, by what it is made
    of. *)
Definition qr_capacity_of (payload : string) : Z :=
  if all_digits payload then qr_capacity
  else if outside (fun c => existsb (Ascii.eqb c) qr_alphanumeric) payload
       then 2953%Z
       else 4296%Z.

Definition ref_make (q : ref_qr) (fit : bool) : result ref_qr :=
  if (Z.of_nat (String.length (ref_payload q))
      <=? qr_capacity_of (ref_payload q))%Z
  then Ok q
  else Raise (Exn "DataOverflowError" "").

Definition env (errors : list string) : Environment := {|
  Session := nat;
  BarcodeClass := symbology;
  Writer := unit;
  BarcodeObject := symbology * string;
  QRCode := ref_qr;
  Image := bytes;
  get_barcode_class := ref_get_barcode_class;
  ImageWriter := Ok tt;
  barcode_class_call := ref_barcode_class_call;
  barcode_write := fun b _ => Ok (ref_render (snd b));
  Image_open := ref_Image_open;
  Image_save := fun i _ => i;
  qrcode_QRCode := ref_QRCode;
  qr_add_data := ref_add_data;
  qr_make := ref_make;
  qr_make_image := fun q _ _ => Ok (ref_render (ref_payload q));
  barcode_errors := fun name => existsb (String.eqb name) errors
|}.

(** The attributes of [barcode.errors]. *)
Definition package_errors : list string :=
  ["BarcodeError"; "IllegalCharacterError"; "BarcodeNotFoundError";
   "NumberOfDigitsError"; "WrongCountryCodeError"].

Definition form (k : code_kind) (data : string) (sym : symbology) : Form :=
  {| form_code_type := k; form_data := data; form_generate := true;
     form_barcode_type := sym |}.

(** The reference packages. *)
Definition packages : Environment := env package_errors.

(** The same packages with a [barcode.errors] that has no [NumberError]. *)
Definition packages_without_NumberError : Environment :=
  env ["BarcodeNotFoundError"; "IllegalCharacterError"].

(** A payload of [n] digits [1]. *)
Fixpoint ones (n : nat) : string :=
  match n with
  | O => ""
  | S n' => String "1" (ones n')
  end.

(** One digit more than the largest QR symbol holds. *)
Definition long_payload : string := ones (Z.to_nat (qr_capacity + 1)).

End Reference.


(** * Properties *)

Section Computations.

Context {E : Environment}.

Lemma BytesIO_write_new (b : bytes) :
  BytesIO_write BytesIO_new b = {| bio_data := b; bio_pos := length b |}.
Proof.
  unfold BytesIO_write, BytesIO_new. simpl.
  rewrite skipn_nil, app_nil_r. reflexivity.
Qed.

Lemma BytesIO_read_back (b : bytes) :
  BytesIO_read (BytesIO_seek (BytesIO_write BytesIO_new b) 0) = b.
Proof. rewrite BytesIO_write_new. reflexivity. Qed.

Lemma BytesIO_getvalue_written (b : bytes) :
  BytesIO_getvalue (BytesIO_write BytesIO_new b) = b.
Proof. rewrite BytesIO_write_new. reflexivity. Qed.

(** [all_events] goes through every way of building a computation. *)

Lemma all_events_ret P {A} (a : A) : all_events P (ret a).
Proof. intros s. reflexivity. Qed.

Lemma all_events_raise P {A} (e : exn) : all_events P (@raise _ A e).
Proof. intros s. reflexivity. Qed.

Lemma all_events_eval P {A} (r : result A) : all_events P (eval r).
Proof. intros s. reflexivity. Qed.

Lemma all_events_emit P (e : event) : P e = true -> all_events P (emit e).
Proof. intros H s. simpl. rewrite H. reflexivity. Qed.

Lemma all_events_call P {A} (e : event) (r : result A) :
  P e = true -> all_events P (call e r).
Proof. intros H s. simpl. rewrite H. reflexivity. Qed.

Lemma all_events_bind P {A B} (m : M A) (k : A -> M B) :
  all_events P m -> (forall a, all_events P (k a)) -> all_events P (bind m k).
Proof.
  intros Hm Hk s. unfold bind, events_of. specialize (Hm s).
  unfold events_of in Hm.
  destruct (m s) as [[evs [a | e]] s1]; simpl in *; [ | assumption ].
  specialize (Hk a s1). unfold events_of in Hk.
  destruct (k a s1) as [[evs' r] s2]; simpl in *.
  rewrite forallb_app, Hm, Hk. reflexivity.
Qed.

Lemma all_events_try_except P {A} (body : M A) (handler : exn -> M A) :
  all_events P body -> (forall e, all_events P (handler e)) ->
  all_events P (try_except body handler).
Proof.
  intros Hm Hh s. unfold try_except, events_of. specialize (Hm s).
  unfold events_of in Hm.
  destruct (body s) as [[evs [a | e]] s1]; simpl in *; [ assumption | ].
  specialize (Hh e s1). unfold events_of in Hh.
  destruct (handler e s1) as [[evs' r] s2]; simpl in *.
  rewrite forallb_app, Hm, Hh. reflexivity.
Qed.

Lemma all_events_except_barcode_error P {A} name e (handler next : M A) :
  all_events P handler -> all_events P next ->
  all_events P (except_barcode_error name e handler next).
Proof.
  intros Hh Hn. unfold except_barcode_error.
  destruct (barcode_errors name); [ | apply all_events_raise ].
  destruct (String.eqb (exn_class e) name); assumption.
Qed.

Lemma filter_none {A} (P : A -> bool) (l : list A) :
  forallb (fun x => negb (P x)) l = true -> filter P l = [].
Proof.
  induction l as [ | x l IH]; simpl; [ reflexivity | ].
  destruct (P x); simpl; [ discriminate | assumption ].
Qed.

End Computations.

Ltac all_events_step :=
  first
    [ apply all_events_bind; [ | intros ? ]
    | apply all_events_try_except; [ | intros ? ]
    | apply all_events_except_barcode_error
    | apply all_events_ret
    | apply all_events_raise
    | apply all_events_eval
    | apply all_events_emit; reflexivity
    | apply all_events_call; reflexivity ].


(** * The orchestrator *)

Section Orchestrator.

Context {E : Environment}.

(** C1.  A run that follows a press of the button with an empty payload
    shows the form and the warning "Please enter data." and nothing else:
    it returns, whatever the two adapters are, so neither is invoked.  And
    in every run the adapters only matter on non-empty payloads: two pairs
    of adapters that agree there give the same run. *)
Theorem empty_payload_never_reaches_adapters
    (gb gb' : string -> string -> pynum -> M (option Image))
    (gq gq' : string -> Z -> M (option Image)) (f : Form) (s : Session) :
  (form_generate f = true -> form_data f = "" ->
     main_with gb gq f s
       = ((form_events ++ [St_warning "Please enter data."])%list, Ok tt, s)
     /\ main f s
       = ((form_events ++ [St_warning "Please enter data."])%list, Ok tt, s))
  /\ ((forall d t sc s0, d <> "" -> gb d t sc s0 = gb' d t sc s0) ->
      (forall d b s0, d <> "" -> gq d b s0 = gq' d b s0) ->
      main_with gb gq f s = main_with gb' gq' f s).
Proof.
  split.
  - intros Hgen Hdata.
    assert (H : forall g1 g2, main_with g1 g2 f s
      = ((form_events ++ [St_warning "Please enter data."])%list, Ok tt, s)).
    { intros g1 g2.
      unfold main_with, st_radio, st_text_input, st_button, bind, emit, ret.
      rewrite Hgen, Hdata. reflexivity. }
    split; [ apply H | apply H ].
  - intros Hgb Hgq.
    unfold main_with, st_radio, st_text_input, st_button, st_selectbox,
      bind, emit, ret.
    destruct (form_generate f); [ | reflexivity ].
    destruct (String.eqb_spec (form_data f) "") as [Heq | Hne];
      [ reflexivity | ].
    destruct (form_code_type f); simpl.
    + rewrite (Hgb _ _ _ _ Hne). reflexivity.
    + rewrite (Hgq _ _ _ Hne). reflexivity.
Qed.

Lemma generate_barcode_offers_nothing data barcode_type scale :
  all_events (fun e => negb (is_download e))
    (generate_barcode data barcode_type scale).
Proof.
  unfold generate_barcode, generate_barcode_try, generate_barcode_except,
    st_error.
  repeat all_events_step.
Qed.

Lemma generate_qrcode_offers_nothing data box_size :
  all_events (fun e => negb (is_download e)) (generate_qrcode data box_size).
Proof.
  unfold generate_qrcode, generate_qrcode_try, st_error.
  repeat all_events_step.
Qed.

Lemma main_after_barcode f s evs o s' :
  form_generate f = true -> form_data f <> "" -> form_code_type f = Barcode ->
  generate_barcode (form_data f) (symbology_name (form_barcode_type f))
      (PyInt 1) s = (evs, Ok o, s') ->
  main f s = ((form_events ++ select_events ++ evs
               ++ render_events o "Barcode" "barcode.png")%list, Ok tt, s').
Proof.
  intros Hgen Hdata Hkind Hrun.
  unfold main, main_with, st_radio, st_text_input, st_button, st_selectbox,
    save_png, bind, emit, ret, call.
  rewrite Hgen, Hkind.
  destruct (String.eqb_spec (form_data f) "") as [Heq | _]; [ contradiction | ].
  simpl. rewrite Hrun.
  destruct o as [img | ]; simpl; rewrite ?skipn_nil, ?app_nil_r;
    reflexivity.
Qed.

Lemma main_after_qrcode f s evs o s' :
  form_generate f = true -> form_data f <> "" -> form_code_type f = QR_Code ->
  generate_qrcode (form_data f) 2 s = (evs, Ok o, s') ->
  main f s = ((form_events ++ evs
               ++ render_events o "QR Code" "qrcode.png")%list, Ok tt, s').
Proof.
  intros Hgen Hdata Hkind Hrun.
  unfold main, main_with, st_radio, st_text_input, st_button, st_selectbox,
    save_png, bind, emit, ret, call.
  rewrite Hgen, Hkind.
  destruct (String.eqb_spec (form_data f) "") as [Heq | _]; [ contradiction | ].
  simpl. rewrite Hrun.
  destruct o as [img | ]; simpl; rewrite ?skipn_nil, ?app_nil_r;
    reflexivity.
Qed.

Lemma render_events_offered o code_type filename :
  filter is_download (render_events o code_type filename)
  = offered o code_type filename.
Proof. destruct o; reflexivity. Qed.

(** C7.  After a press of the button with a non-empty payload, when the
    adapter of the selected kind returns an image, the run saves it as PNG,
    shows it and offers exactly one download, named "barcode.png" for kind
    Barcode and "qrcode.png" for kind QR Code; when the adapter returns
    [None], the run ends with the failure message and offers no download. *)
Theorem download_follows_adapter (f : Form) (s s' : Session)
    (evs : list event) (o : option Image) :
  form_generate f = true -> form_data f <> "" ->
  (form_code_type f = Barcode ->
   generate_barcode (form_data f) (symbology_name (form_barcode_type f))
       (PyInt 1) s = (evs, Ok o, s') ->
   main f s = ((form_events ++ select_events ++ evs
                ++ render_events o "Barcode" "barcode.png")%list, Ok tt, s')
   /\ filter is_download (events_of (main f s))
      = offered o "Barcode" "barcode.png")
  /\ (form_code_type f = QR_Code ->
      generate_qrcode (form_data f) 2 s = (evs, Ok o, s') ->
      main f s = ((form_events ++ evs
                   ++ render_events o "QR Code" "qrcode.png")%list, Ok tt, s')
      /\ filter is_download (events_of (main f s))
         = offered o "QR Code" "qrcode.png").
Proof.
  intros Hgen Hdata. split; intros Hkind Hrun.
  - rewrite (main_after_barcode f s evs o s' Hgen Hdata Hkind Hrun).
    split; [ reflexivity | ].
    unfold events_of; simpl fst.
    pose proof (generate_barcode_offers_nothing (form_data f)
                  (symbology_name (form_barcode_type f)) (PyInt 1) s) as Hno.
    rewrite Hrun in Hno. unfold events_of in Hno; simpl in Hno.
    unfold form_events, select_events; simpl.
    rewrite filter_app, (filter_none _ _ Hno), render_events_offered.
    reflexivity.
  - rewrite (main_after_qrcode f s evs o s' Hgen Hdata Hkind Hrun).
    split; [ reflexivity | ].
    unfold events_of; simpl fst.
    pose proof (generate_qrcode_offers_nothing (form_data f) 2 s) as Hno.
    rewrite Hrun in Hno. unfold events_of in Hno; simpl in Hno.
    unfold form_events, select_events; simpl.
    rewrite filter_app, (filter_none _ _ Hno), render_events_offered.
    reflexivity.
Qed.

End Orchestrator.

(** * How a [try] suite ends *)

Section Totality.

Context {E : Environment}.

Lemma generate_barcode_returned data barcode_type scale s evs o s' :
  generate_barcode_try data barcode_type scale s = (evs, Ok o, s') ->
  generate_barcode data barcode_type scale s = (evs, Ok o, s').
Proof.
  intros Htry. unfold generate_barcode, try_except. rewrite Htry. reflexivity.
Qed.

Lemma generate_qrcode_caught data box_size s evs e s' :
  generate_qrcode_try data box_size s = (evs, Raise e, s') ->
  generate_qrcode data box_size s
  = ((evs ++ [St_error (msg_creating_qrcode (exn_msg e))])%list, Ok None, s').
Proof.
  intros Htry. unfold generate_qrcode, try_except. rewrite Htry. reflexivity.
Qed.

Lemma generate_qrcode_returned data box_size s evs o s' :
  generate_qrcode_try data box_size s = (evs, Ok o, s') ->
  generate_qrcode data box_size s = (evs, Ok o, s').
Proof.
  intros Htry. unfold generate_qrcode, try_except. rewrite Htry. reflexivity.
Qed.

(** Where [NumberError] is not an attribute of [barcode.errors], every
    exception of the [try] suite other than [BarcodeNotFoundError] leaves
    the adapter as an [AttributeError], raised where the second clause is
    matched; the clauses after it are never reached. *)
Lemma unresolved_clause_propagates data barcode_type scale s evs e s' :
  barcode_errors "BarcodeNotFoundError" = true ->
  barcode_errors "NumberError" = false ->
  String.eqb (exn_class e) "BarcodeNotFoundError" = false ->
  generate_barcode_try data barcode_type scale s = (evs, Raise e, s') ->
  generate_barcode data barcode_type scale s
  = (evs,
     Raise (Exn "AttributeError"
              "module 'barcode.errors' has no attribute 'NumberError'"),
     s').
Proof.
  intros H1 H2 Hcls Htry.
  unfold generate_barcode, try_except. rewrite Htry.
  unfold generate_barcode_except, except_barcode_error.
  rewrite H1, Hcls, H2. simpl. rewrite app_nil_r. reflexivity.
Qed.

End Totality.

(** * The adapters *)

Section AdapterProperties.

Context {E : Environment}.

Lemma generate_qrcode_try_pipeline data box_size s :
  outcome_of (generate_qrcode_try data box_size s)
  = match qr_pipeline data box_size with
    | Ok img => Ok (Some img)
    | Raise e => Raise e
    end
  /\ session_of (generate_qrcode_try data box_size s) = s.
Proof.
  unfold generate_qrcode_try, qr_pipeline, bind, call, ret, outcome_of,
    session_of.
  destruct (qrcode_QRCode 1 ERROR_CORRECT_L box_size 2) as [q0 | e];
    [ | split; reflexivity ].
  destruct (qr_add_data q0 data) as [q1 | e]; [ | split; reflexivity ].
  destruct (qr_make q1 true) as [q2 | e]; [ | split; reflexivity ].
  destruct (qr_make_image q2 "black" "white") as [img | e]; split; reflexivity.
Qed.

(** C2, as the code has it.  [generate_qrcode] returns an image exactly
    when the four calls into the QR package return, and then it is the
    image [make_image] built; when one of them raises it reports "Error
    creating QR code: ..." and returns [None].  Whether the payload is
    empty plays no part. *)
Theorem generate_qrcode_follows_library (data : string) (box_size : Z)
    (s : Session) :
  outcome_of (generate_qrcode data box_size s)
  = match qr_pipeline data box_size with
    | Ok img => Ok (Some img)
    | Raise _ => Ok None
    end
  /\ session_of (generate_qrcode data box_size s) = s
  /\ forall e, qr_pipeline data box_size = Raise e ->
       exists evs,
         events_of (generate_qrcode data box_size s)
         = (evs ++ [St_error (msg_creating_qrcode (exn_msg e))])%list.
Proof.
  destruct (generate_qrcode_try_pipeline data box_size s) as [Hout Hses].
  destruct (generate_qrcode_try data box_size s) as [[evs r] s'] eqn:Htry.
  unfold outcome_of, session_of in Hout, Hses; simpl in Hout, Hses. subst s'.
  destruct r as [o | e].
  - rewrite (generate_qrcode_returned _ _ _ _ _ _ Htry).
    unfold outcome_of, session_of, events_of; simpl.
    destruct (qr_pipeline data box_size) as [img | e'];
      [ | discriminate ].
    repeat split; [ assumption | intros e He; discriminate ].
  - rewrite (generate_qrcode_caught _ _ _ _ _ _ Htry).
    unfold outcome_of, session_of, events_of; simpl.
    destruct (qr_pipeline data box_size) as [img | e'];
      [ discriminate | ].
    repeat split. intros e0 He0. inversion He0; subst. inversion Hout; subst.
    exists evs. reflexivity.
Qed.

(** C5.  Whatever the payload and the box size, every QR code that
    [generate_qrcode] returns is built under the fixed policy: it is the
    image that [make_image] builds from the object that [make(fit=True)]
    fitted, after [add_data] put the payload into the object constructed
    with level L and a border of 2 modules, starting from version 1, the
    smallest grid; these four calls are all that the adapter does.  In
    every run, also a failing one, the first call is this constructor,
    every call follows the policy, and [make] is called with [fit=True]
    as soon as the constructor and [add_data] have returned. *)
Theorem qr_policy_is_fixed (data : string) (box_size : Z) (s : Session) :
  (forall evs img s',
     generate_qrcode data box_size s = (evs, Ok (Some img), s') ->
     exists q0 q1 q2,
       qrcode_QRCode 1 ERROR_CORRECT_L box_size 2 = Ok q0
       /\ qr_add_data q0 data = Ok q1
       /\ qr_make q1 true = Ok q2
       /\ qr_make_image q2 "black" "white" = Ok img
       /\ evs = [Call_QRCode 1 ERROR_CORRECT_L box_size 2;
                 Call_add_data q0 data; Call_make q1 true;
                 Call_make_image q2 "black" "white"])
  /\ (exists rest,
        events_of (generate_qrcode data box_size s)
        = Call_QRCode 1 ERROR_CORRECT_L box_size 2 :: rest)
  /\ forallb follows_qr_policy (events_of (generate_qrcode data box_size s))
     = true
  /\ (forall q0 q1,
        qrcode_QRCode 1 ERROR_CORRECT_L box_size 2 = Ok q0 ->
        qr_add_data q0 data = Ok q1 ->
        In (Call_make q1 true) (events_of (generate_qrcode data box_size s))).
Proof.
  split; [ | split; [ | split ] ].
  - unfold generate_qrcode, generate_qrcode_try, try_except, bind, call, ret,
      st_error, emit.
    intros evs img s'.
    destruct (qrcode_QRCode 1 ERROR_CORRECT_L box_size 2) as [q0 | e] eqn:H0;
      [ | simpl; intros H; inversion H ].
    destruct (qr_add_data q0 data) as [q1 | e] eqn:H1;
      [ | simpl; intros H; inversion H ].
    destruct (qr_make q1 true) as [q2 | e] eqn:H2;
      [ | simpl; intros H; inversion H ].
    destruct (qr_make_image q2 "black" "white") as [img0 | e] eqn:H3;
      simpl; intros H; inversion H; subst.
    exists q0, q1, q2. repeat split; assumption.
  - unfold generate_qrcode, generate_qrcode_try, try_except, bind, call, ret,
      st_error, emit, events_of.
    destruct (qrcode_QRCode 1 ERROR_CORRECT_L box_size 2) as [q0 | e];
      [ | eexists; reflexivity ].
    destruct (qr_add_data q0 data) as [q1 | e]; [ | eexists; reflexivity ].
    destruct (qr_make q1 true) as [q2 | e]; [ | eexists; reflexivity ].
    destruct (qr_make_image q2 "black" "white") as [img | e];
      eexists; reflexivity.
  - revert s.
    change (all_events follows_qr_policy (generate_qrcode data box_size)).
    unfold generate_qrcode, generate_qrcode_try, st_error.
    repeat all_events_step.
  - intros q0 q1 H0 H1.
    unfold generate_qrcode, generate_qrcode_try, try_except, bind, call, ret,
      st_error, emit, events_of.
    rewrite H0, H1.
    destruct (qr_make q1 true) as [q2 | e]; [ | simpl; auto ].
    destruct (qr_make_image q2 "black" "white") as [img | e]; simpl; auto.
Qed.

Lemma generate_barcode_except_errors_only barcode_type e :
  all_events (fun ev => match ev with St_error _ => true | _ => false end)
    (generate_barcode_except barcode_type e).
Proof.
  unfold generate_barcode_except, st_error. repeat all_events_step.
Qed.


Lemma generate_barcode_events_split data barcode_type scale s :
  exists handled,
    events_of (generate_barcode data barcode_type scale s)
    = (events_of (generate_barcode_try data barcode_type scale s)
       ++ handled)%list
    /\ forallb (fun ev => match ev with St_error _ => true | _ => false end)
         handled = true.
Proof.
  unfold generate_barcode, try_except, events_of.
  destruct (generate_barcode_try data barcode_type scale s)
    as [[evs [o | e]] s1]; simpl.
  - exists []. rewrite app_nil_r. split; reflexivity.
  - pose proof (generate_barcode_except_errors_only barcode_type e s1) as H.
    unfold events_of in H.
    destruct (generate_barcode_except barcode_type e s1) as [[evs' r] s2].
    exists evs'. split; [ reflexivity | exact H ].
Qed.




End AdapterProperties.

(** * The properties at work in the reference environment *)

Module ReferenceRuns.

Import Reference.

(** C1 at work: an empty payload with the button pressed. *)
Lemma empty_payload_witness :
  @main packages (form QR_Code "" code128) 0
  = ((form_events ++ [St_warning "Please enter data."])%list, Ok tt, 0).
Proof.
  exact (proj2 (proj1 (@empty_payload_never_reaches_adapters packages
                         generate_barcode generate_barcode
                         generate_qrcode generate_qrcode
                         (form QR_Code "" code128) 0)
                  eq_refl eq_refl)).
Defined.

(** C7 at work: the QR code of "hello" is offered as "qrcode.png". *)
Lemma download_witness :
  filter is_download (events_of (@main packages (form QR_Code "hello" code128) 0))
  = [St_download_button "Download QR Code (PNG)" (ref_render "hello")
       "qrcode.png" "image/png"].
Proof.
  refine (proj2 (proj2 (@download_follows_adapter packages
                          (form QR_Code "hello" code128) 0 0
                          _ (Some (ref_render "hello")) eq_refl _)
                   eq_refl eq_refl)).
  simpl. discriminate.
Defined.

(** C2 at work: the QR code of "hello". *)
Lemma generate_qrcode_witness :
  outcome_of (@generate_qrcode packages "hello" 2 0)
  = Ok (Some (ref_render "hello")).
Proof.
  exact (proj1 (@generate_qrcode_follows_library packages "hello" 2 0)).
Defined.

(** C2 as stated fails: a payload of 7090 digits is not empty, and no QR
    symbol holds it, so [make] raises and the adapter returns [None]. *)
Lemma generate_qrcode_overflow :
  String.eqb long_payload "" = false
  /\ Z.of_nat (String.length long_payload) = 7090%Z
  /\ outcome_of (@generate_qrcode packages long_payload 2 0) = Ok None.
Proof. repeat split; vm_compute; reflexivity. Qed.

(** C5 at work: the QR code of "hello" is the image of the fitted object. *)
Lemma qr_policy_witness :
  exists q0 q1 q2 : ref_qr,
    @qrcode_QRCode packages 1 ERROR_CORRECT_L 2 2 = Ok q0
    /\ @qr_add_data packages q0 "hello" = Ok q1
    /\ @qr_make packages q1 true = Ok q2
    /\ @qr_make_image packages q2 "black" "white" = Ok (ref_render "hello")
    /\ events_of (@generate_qrcode packages "hello" 2 0)
       = [@Call_QRCode packages 1 ERROR_CORRECT_L 2 2;
          @Call_add_data packages q0 "hello"; @Call_make packages q1 true;
          @Call_make_image packages q2 "black" "white"].
Proof.
  exact (proj1 (@qr_policy_is_fixed packages "hello" 2 0)
           (events_of (@generate_qrcode packages "hello" 2 0))
           (ref_render "hello") 0 eq_refl).
Defined.


(** C3 against the code.  Five digits are fewer than twelve, and the
    EAN-13 class rejects them with [NumberOfDigitsError].  The clause
    meant for that, the one with the message "Invalid data", names
    [barcode.errors.NumberError], which the package does not define: the
    look-up raises [AttributeError], and [generate_barcode] neither
    reports nor returns [None], it raises. *)
Theorem short_ean13_escapes_as_AttributeError :
  @barcode_class_call packages ean13 "12345" tt
  = Raise (Exn "NumberOfDigitsError" "wrong number of digits")
  /\ @barcode_errors packages "NumberError" = false
  /\ @generate_barcode packages "12345" "ean13" (PyInt 1) 0
     = ([Call_get_barcode_class "ean13"; Call_ImageWriter;
         @Call_barcode_class packages ean13 "12345" tt],
        Raise (Exn "AttributeError"
                 "module 'barcode.errors' has no attribute 'NumberError'"),
        0).
Proof. repeat split. Qed.

(** C4 against the code.  "12a4567" has a letter, and the EAN-8 class
    rejects it with [IllegalCharacterError]; the clause for that class
    comes after the clause that names the missing [NumberError], so the
    adapter raises [AttributeError] and reports nothing.  Two more ways in
    which a payload with a character outside the alphabet does not end in
    "Invalid characters": lower-case "abc" in Code 39 is put in upper case
    by the class and gives an image, and "pzn7" is no name of the package,
    so every payload gives "not supported". *)
Theorem illegal_character_escapes_as_AttributeError :
  @barcode_class_call packages ean8 "12a4567" tt
  = Raise (Exn "IllegalCharacterError" "illegal character in the payload")
  /\ @generate_barcode packages "12a4567" "ean8" (PyInt 1) 0
     = ([Call_get_barcode_class "ean8"; Call_ImageWriter;
         @Call_barcode_class packages ean8 "12a4567" tt],
        Raise (Exn "AttributeError"
                 "module 'barcode.errors' has no attribute 'NumberError'"),
        0)
  /\ outcome_of (@generate_barcode packages "abc" "code39" (PyInt 1) 0)
     = Ok (Some (ref_render "ABC"))
  /\ @generate_barcode packages "12a456" "pzn7" (PyInt 1) 0
     = ([Call_get_barcode_class "pzn7";
         St_error "Error: Barcode type 'pzn7' is not supported."],
        Ok None, 0).
Proof. repeat split. Qed.

(** C10 against the code.  [generate_barcode] is not total: on "abc" as
    EAN-13 the class raises [IllegalCharacterError], the second [except]
    clause raises [AttributeError] while it looks up the missing
    [NumberError], and that exception leaves the adapter; the last,
    catch-all clause is never reached.  [main] does not catch it either. *)
Theorem generate_barcode_raises_AttributeError :
  outcome_of (@generate_barcode packages "abc" "ean13" (PyInt 1) 0)
  = Raise (Exn "AttributeError"
             "module 'barcode.errors' has no attribute 'NumberError'")
  /\ outcome_of (@main packages (form Barcode "abc" ean13) 0)
     = Raise (Exn "AttributeError"
                "module 'barcode.errors' has no attribute 'NumberError'")
  /\ filter is_error (events_of (@main packages (form Barcode "abc" ean13) 0))
     = [].
Proof. repeat split. Qed.

End ReferenceRuns.

(** * Further properties of the adapters and of [main] *)

Section Runs.

Context {E : Environment}.

Lemma filter_none_of {A} (Q P : A -> bool) (l : list A) :
  (forall x, Q x = true -> P x = false) ->
  forallb Q l = true -> filter P l = [].
Proof.
  intros HQP. induction l as [ | x l IH]; simpl; [ reflexivity | ].
  intros H. apply andb_prop in H. destruct H as [Hx Hl].
  rewrite (HQP x Hx). exact (IH Hl).
Qed.

Lemma generate_barcode_try_calls data barcode_type scale :
  all_events is_barcode_call (generate_barcode_try data barcode_type scale).
Proof. unfold generate_barcode_try. repeat all_events_step. Qed.

Lemma generate_qrcode_try_calls data box_size :
  all_events is_qr_call (generate_qrcode_try data box_size).
Proof. unfold generate_qrcode_try. repeat all_events_step. Qed.

Lemma generate_barcode_adapter_events data barcode_type scale :
  all_events (fun e => is_barcode_call e || is_error e)
    (generate_barcode data barcode_type scale).
Proof.
  unfold generate_barcode, generate_barcode_try, generate_barcode_except,
    st_error.
  repeat all_events_step.
Qed.

Lemma generate_qrcode_adapter_events data box_size :
  all_events (fun e => is_qr_call e || is_error e)
    (generate_qrcode data box_size).
Proof.
  unfold generate_qrcode, generate_qrcode_try, st_error.
  repeat all_events_step.
Qed.

(** The shape of a run, case by case. *)
Lemma main_cases (f : Form) (s : Session) :
  main f s
  = if form_generate f then
      if String.eqb (form_data f) "" then
        ((form_events ++ [St_warning "Please enter data."])%list, Ok tt, s)
      else
        match form_code_type f with
        | Barcode =>
            match generate_barcode (form_data f)
                    (symbology_name (form_barcode_type f)) (PyInt 1) s with
            | (evs, Ok o, s1) =>
                ((form_events ++ select_events ++ evs
                  ++ render_events o "Barcode" "barcode.png")%list, Ok tt, s1)
            | (evs, Raise e, s1) =>
                ((form_events ++ select_events ++ evs)%list, Raise e, s1)
            end
        | QR_Code =>
            match generate_qrcode (form_data f) 2 s with
            | (evs, Ok o, s1) =>
                ((form_events ++ evs
                  ++ render_events o "QR Code" "qrcode.png")%list, Ok tt, s1)
            | (evs, Raise e, s1) => ((form_events ++ evs)%list, Raise e, s1)
            end
        end
    else (form_events, Ok tt, s).
Proof.
  unfold main, main_with, st_radio, st_text_input, st_button, st_selectbox,
    save_png, bind, emit, ret, call.
  destruct (form_generate f); [ | reflexivity ].
  destruct (String.eqb (form_data f) ""); [ reflexivity | ].
  destruct (form_code_type f); simpl.
  - destruct (generate_barcode _ _ _ s) as [[evs [[img | ] | e]] s1]; simpl;
      rewrite ?skipn_nil, ?app_nil_r; reflexivity.
  - destruct (generate_qrcode _ _ s) as [[evs [[img | ] | e]] s1]; simpl;
      rewrite ?skipn_nil, ?app_nil_r; reflexivity.
Qed.

End Runs.

(** The events of kind [P] among events that all satisfy [Q], no event
    being of both kinds. *)
Ltac no_events Q P Hev :=
  rewrite (filter_none_of Q P _
             ltac:(intros x; destruct x; cbv; congruence) Hev).

Section FurtherProperties.

Context {E : Environment}.

(** X1.  An unknown barcode type: when [get_barcode_class] raises
    [BarcodeNotFoundError] and that class is an attribute of
    [barcode.errors], the adapter makes no other call, reports "Error:
    Barcode type '...' is not supported." with the requested name, drops
    the message of the package, and returns [None].  The later clauses are
    not reached, so this holds whether or not their classes exist. *)
Theorem unknown_barcode_type_is_reported (data barcode_type m : string)
    (scale : pynum) (s : Session) :
  barcode_errors "BarcodeNotFoundError" = true ->
  get_barcode_class barcode_type = Raise (Exn "BarcodeNotFoundError" m) ->
  generate_barcode data barcode_type scale s
  = ([Call_get_barcode_class barcode_type;
      St_error (msg_not_supported barcode_type)], Ok None, s).
Proof.
  intros Hres Hget.
  unfold generate_barcode, generate_barcode_try, generate_barcode_except,
    except_barcode_error, try_except, bind, call, st_error, emit, ret.
  rewrite Hget, Hres. reflexivity.
Qed.

(** X2.  A missing handler class reaches the page: if [barcode.errors]
    defines [BarcodeNotFoundError] but not [NumberError], then in a
    Barcode run whose [try] suite raises anything but
    [BarcodeNotFoundError], [main] itself ends in [AttributeError]; the
    run shows no error message of its own and offers no download. *)
Theorem missing_handler_class_ends_the_run (f : Form) (s s' : Session)
    (evs : list event) (e : exn) :
  barcode_errors "BarcodeNotFoundError" = true ->
  barcode_errors "NumberError" = false ->
  form_generate f = true -> form_data f <> "" -> form_code_type f = Barcode ->
  String.eqb (exn_class e) "BarcodeNotFoundError" = false ->
  generate_barcode_try (form_data f) (symbology_name (form_barcode_type f))
      (PyInt 1) s = (evs, Raise e, s') ->
  main f s
  = ((form_events ++ select_events ++ evs)%list,
     Raise (Exn "AttributeError"
              "module 'barcode.errors' has no attribute 'NumberError'"),
     s')
  /\ filter is_error (events_of (main f s)) = []
  /\ filter is_download (events_of (main f s)) = [].
Proof.
  intros H1 H2 Hgen Hdata Hkind Hcls Htry.
  pose proof (unresolved_clause_propagates _ _ _ _ _ _ _ H1 H2 Hcls Htry)
    as Hrun.
  assert (Hmain : main f s
    = ((form_events ++ select_events ++ evs)%list,
       Raise (Exn "AttributeError"
                "module 'barcode.errors' has no attribute 'NumberError'"),
       s')).
  { rewrite main_cases, Hgen, Hkind, Hrun.
    destruct (String.eqb_spec (form_data f) ""); [ contradiction | ].
    reflexivity. }
  pose proof (generate_barcode_try_calls (form_data f)
                (symbology_name (form_barcode_type f)) (PyInt 1) s) as Hcalls.
  rewrite Htry in Hcalls. unfold events_of in Hcalls; simpl in Hcalls.
  rewrite Hmain. unfold events_of, form_events, select_events; simpl.
  repeat split.
  - apply (filter_none_of is_barcode_call); [ | assumption ].
    intros x; destruct x; simpl; congruence.
  - apply (filter_none_of is_barcode_call); [ | assumption ].
    intros x; destruct x; simpl; congruence.
Qed.

Lemma py_mul_raises (a b : pynum) (e : exn) :
  py_mul a b = Raise e ->
  e = Exn "OverflowError" "int too large to convert to float".
Proof.
  unfold py_mul, float_of_int.
  destruct a as [x | x], b as [y | y]; try discriminate.
  - destruct (is_infinity _); [ | discriminate ]. congruence.
  - destruct (is_infinity _); [ | discriminate ]. congruence.
Qed.

Lemma generate_barcode_except_no_image barcode_type e s :
  outcome_of (generate_barcode_except barcode_type e s) = Ok None
  \/ exists e', outcome_of (generate_barcode_except barcode_type e s) = Raise e'.
Proof.
  unfold generate_barcode_except, except_barcode_error, st_error, bind, emit,
    ret, raise, outcome_of.
  destruct (barcode_errors "BarcodeNotFoundError"); [ | simpl; eauto ].
  destruct (String.eqb (exn_class e) "BarcodeNotFoundError"); [ simpl; auto | ].
  destruct (barcode_errors "NumberError"); [ | simpl; eauto ].
  destruct (String.eqb (exn_class e) "NumberError"); [ simpl; auto | ].
  destruct (barcode_errors "IllegalCharacterError"); [ | simpl; eauto ].
  destruct (String.eqb (exn_class e) "IllegalCharacterError"); simpl; auto.
Qed.

(** X3.  The options are computed inside [try].  The height [10 * scale]
    never fails.  When the width [0.2 * scale] cannot be computed (an
    integer scale too large for a float), the [try] suite ends in
    [OverflowError] after the barcode object is built: the writer is
    never called and no image is returned, the adapter causing nothing
    more than error messages.  Where [barcode.errors] has
    [BarcodeNotFoundError] but no [NumberError], the adapter raises
    [AttributeError]. *)
Theorem scale_overflow_never_reaches_writer (data barcode_type : string)
    (scale : pynum) (s : Session) (c : BarcodeClass) (w : Writer)
    (b : BarcodeObject) (e : exn) :
  (forall sc, exists mh, py_mul (PyInt 10) sc = Ok mh)
  /\ (get_barcode_class barcode_type = Ok c ->
      ImageWriter = Ok w ->
      barcode_class_call c data w = Ok b ->
      py_mul (PyFloat float_0_2) scale = Raise e ->
      generate_barcode_try data barcode_type scale s
      = ([Call_get_barcode_class barcode_type; Call_ImageWriter;
          Call_barcode_class c data w],
         Raise (Exn "OverflowError" "int too large to convert to float"), s)
      /\ (exists handled,
            events_of (generate_barcode data barcode_type scale s)
            = ([Call_get_barcode_class barcode_type; Call_ImageWriter;
                Call_barcode_class c data w] ++ handled)%list
            /\ forallb is_error handled = true)
      /\ (outcome_of (generate_barcode data barcode_type scale s) = Ok None
          \/ exists e',
               outcome_of (generate_barcode data barcode_type scale s)
               = Raise e')
      /\ (barcode_errors "BarcodeNotFoundError" = true ->
          barcode_errors "NumberError" = false ->
          generate_barcode data barcode_type scale s
          = ([Call_get_barcode_class barcode_type; Call_ImageWriter;
              Call_barcode_class c data w],
             Raise (Exn "AttributeError"
                      "module 'barcode.errors' has no attribute 'NumberError'"),
             s))).
Proof.
  split.
  - intros [z | y]; [ eexists; reflexivity | ].
    exists (PyFloat (10 * y)). reflexivity.
  - intros Hc Hw Hb Hmul.
    pose proof (py_mul_raises _ _ _ Hmul) as He. subst e.
    assert (Htry : generate_barcode_try data barcode_type scale s
      = ([Call_get_barcode_class barcode_type; Call_ImageWriter;
          Call_barcode_class c data w],
         Raise (Exn "OverflowError" "int too large to convert to float"), s)).
    { unfold generate_barcode_try, bind, call, eval.
      rewrite Hc, Hw, Hb, Hmul. reflexivity. }
    split; [ exact Htry | ]. split; [ | split ].
    + destruct (generate_barcode_events_split data barcode_type scale s)
        as (handled & Heq & Hh).
      exists handled. rewrite Heq, Htry. split; [ reflexivity | exact Hh ].
    + unfold generate_barcode, try_except. rewrite Htry.
      pose proof (generate_barcode_except_no_image barcode_type
                    (Exn "OverflowError" "int too large to convert to float")
                    s) as H.
      unfold outcome_of in H |- *.
      destruct (generate_barcode_except _ _ s) as [[evs' r] s2]. exact H.
    + intros H1 H2.
      exact (unresolved_clause_propagates data barcode_type scale s _
               (Exn "OverflowError" "int too large to convert to float") s
               H1 H2 eq_refl Htry).
Qed.

(** X4.  The buffer hands the image bytes over unchanged: once the writer
    has written [written], [Image.open] is called on exactly [written]
    (the stream having been rewound with [seek(0)]), and the adapter
    returns the image that call gives. *)
Theorem opened_image_is_what_was_written (data barcode_type : string)
    (scale mw mh : pynum) (s : Session) (c : BarcodeClass) (w : Writer)
    (b : BarcodeObject) (written : bytes) (img : Image) :
  get_barcode_class barcode_type = Ok c ->
  ImageWriter = Ok w ->
  barcode_class_call c data w = Ok b ->
  py_mul (PyFloat float_0_2) scale = Ok mw ->
  py_mul (PyInt 10) scale = Ok mh ->
  barcode_write b [("module_width", mw); ("module_height", mh)] = Ok written ->
  Image_open written = Ok img ->
  generate_barcode data barcode_type scale s
  = ([Call_get_barcode_class barcode_type; Call_ImageWriter;
      Call_barcode_class c data w;
      Call_write b [("module_width", mw); ("module_height", mh)];
      Call_Image_open written],
     Ok (Some img), s).
Proof.
  intros Hc Hw Hb Hmw Hmh Hwr Hopen.
  apply generate_barcode_returned.
  unfold generate_barcode_try, bind, call, eval, ret.
  rewrite Hc, Hw, Hb, Hmw, Hmh, Hwr. simpl.
  rewrite BytesIO_read_back, Hopen. reflexivity.
Qed.

(** X5.  The kind selects the adapter: a run for kind QR Code makes no
    call on the barcode side and draws no select box, and a run for kind
    Barcode makes no call into the QR package, whatever the rest of the
    form is. *)
Theorem kind_selects_the_adapter (f : Form) (s : Session) :
  (form_code_type f = QR_Code ->
   filter is_barcode_call (events_of (main f s)) = []
   /\ filter is_selectbox (events_of (main f s)) = [])
  /\ (form_code_type f = Barcode ->
      filter is_qr_call (events_of (main f s)) = []).
Proof.
  split; intros Hkind; rewrite main_cases, Hkind.
  - destruct (form_generate f); [ | split; reflexivity ].
    destruct (String.eqb (form_data f) ""); [ split; reflexivity | ].
    pose proof (generate_qrcode_adapter_events (form_data f) 2 s) as Hev.
    unfold events_of in Hev |- *.
    destruct (generate_qrcode (form_data f) 2 s) as [[evs [o | e]] s1];
      simpl in Hev |- *; rewrite ?filter_app; split.
    + no_events qr_side is_barcode_call Hev. destruct o; reflexivity.
    + no_events qr_side is_selectbox Hev. destruct o; reflexivity.
    + no_events qr_side is_barcode_call Hev. reflexivity.
    + no_events qr_side is_selectbox Hev. reflexivity.
  - destruct (form_generate f); [ | reflexivity ].
    destruct (String.eqb (form_data f) ""); [ reflexivity | ].
    pose proof (generate_barcode_adapter_events (form_data f)
                  (symbology_name (form_barcode_type f)) (PyInt 1) s) as Hev.
    unfold events_of in Hev |- *.
    destruct (generate_barcode _ _ _ s) as [[evs [o | e]] s1];
      simpl in Hev |- *; rewrite ?filter_app.
    + no_events barcode_side is_qr_call Hev. destruct o; reflexivity.
    + no_events barcode_side is_qr_call Hev. reflexivity.
Qed.

(** X7.  Which widgets a run draws.  Without a press of the button it
    draws the four widgets of the form and nothing else.  The warning
    appears exactly in the runs with the button pressed and an empty
    payload, and the select box of barcode types exactly in the runs with
    the button pressed, a non-empty payload and kind Barcode: it is not on
    the page before the press. *)
Theorem widgets_of_a_run (f : Form) (s : Session) :
  (form_generate f = false -> main f s = (form_events, Ok tt, s))
  /\ filter is_warning (events_of (main f s))
     = (if form_generate f && String.eqb (form_data f) ""
        then [St_warning "Please enter data."] else [])
  /\ filter is_selectbox (events_of (main f s))
     = (if form_generate f && negb (String.eqb (form_data f) "")
        then match form_code_type f with
             | Barcode => select_events
             | QR_Code => []
             end
        else []).
Proof.
  split; [ intros Hgen; rewrite main_cases, Hgen; reflexivity | ].
  rewrite main_cases.
  destruct (form_generate f); [ | split; reflexivity ].
  destruct (String.eqb (form_data f) ""); [ split; reflexivity | ].
  destruct (form_code_type f).
  - pose proof (generate_barcode_adapter_events (form_data f)
                  (symbology_name (form_barcode_type f)) (PyInt 1) s) as Hev.
    unfold events_of in Hev |- *.
    destruct (generate_barcode _ _ _ s) as [[evs [o | e]] s1];
      simpl in Hev |- *; rewrite ?filter_app; split.
    + no_events barcode_side is_warning Hev. destruct o; reflexivity.
    + no_events barcode_side is_selectbox Hev. destruct o; reflexivity.
    + no_events barcode_side is_warning Hev. reflexivity.
    + no_events barcode_side is_selectbox Hev. reflexivity.
  - pose proof (generate_qrcode_adapter_events (form_data f) 2 s) as Hev.
    unfold events_of in Hev |- *.
    destruct (generate_qrcode _ _ s) as [[evs [o | e]] s1];
      simpl in Hev |- *; rewrite ?filter_app; split.
    + no_events qr_side is_warning Hev. destruct o; reflexivity.
    + no_events qr_side is_selectbox Hev. destruct o; reflexivity.
    + no_events qr_side is_warning Hev. reflexivity.
    + no_events qr_side is_selectbox Hev. reflexivity.
Qed.

(** X8.  A failed QR encoding shows two messages and no image: when the
    [try] suite of [generate_qrcode] raises [e], the run shows "Error
    creating QR code: ..." with [str(e)], then "Code generation failed.
    See error messages above.", ends normally, and nothing is saved,
    shown or offered. *)
Theorem failed_qr_run_shows_two_messages (f : Form) (s s' : Session)
    (evs : list event) (e : exn) :
  form_generate f = true -> form_data f <> "" -> form_code_type f = QR_Code ->
  generate_qrcode_try (form_data f) 2 s = (evs, Raise e, s') ->
  main f s
  = ((form_events ++ evs
      ++ [St_error (msg_creating_qrcode (exn_msg e)); closing_error])%list,
     Ok tt, s')
  /\ filter is_error (events_of (main f s))
     = [St_error (msg_creating_qrcode (exn_msg e)); closing_error]
  /\ filter is_download (events_of (main f s)) = [].
Proof.
  intros Hgen Hdata Hkind Htry.
  assert (Hne : String.eqb (form_data f) "" = false)
    by (apply String.eqb_neq; assumption).
  pose proof (generate_qrcode_caught _ _ _ _ _ _ Htry) as Hrun.
  assert (Hmain : main f s
    = ((form_events ++ evs
        ++ [St_error (msg_creating_qrcode (exn_msg e));
            closing_error])%list, Ok tt, s')).
  { rewrite main_cases, Hgen, Hne, Hkind, Hrun. simpl render_events.
    rewrite <- !app_assoc. reflexivity. }
  split; [ exact Hmain | ].
  pose proof (generate_qrcode_try_calls (form_data f) 2 s) as Hc.
  rewrite Htry in Hc. unfold events_of in Hc; simpl in Hc.
  rewrite Hmain. unfold events_of, form_events; simpl. split.
  - rewrite filter_app. no_events is_qr_call is_error Hc. reflexivity.
  - rewrite filter_app. no_events is_qr_call is_download Hc. reflexivity.
Qed.

End FurtherProperties.

(** * The further properties at work in the reference environment *)

Module FurtherRuns.

Import Reference.

(** X1 at work: "qr" is no barcode type. *)
Lemma unknown_barcode_type_witness :
  @generate_barcode packages "12345" "qr" (PyInt 1) 0
  = ([Call_get_barcode_class "qr";
      St_error "Error: Barcode type 'qr' is not supported."], Ok None, 0).
Proof.
  exact (@unknown_barcode_type_is_reported packages "12345" "qr"
           "The barcode 'qr' is not known." (PyInt 1) 0 eq_refl eq_refl).
Defined.

(** X2 at work: "abc" as EAN-13, the class [NumberError] missing. *)
Lemma missing_handler_class_witness :
  outcome_of (@main packages_without_NumberError (form Barcode "abc" ean13) 0)
  = Raise (Exn "AttributeError"
             "module 'barcode.errors' has no attribute 'NumberError'").
Proof.
  refine (f_equal outcome_of
            (proj1 (@missing_handler_class_ends_the_run
                      packages_without_NumberError (form Barcode "abc" ean13)
                      0 0
                      [Call_get_barcode_class "ean13"; Call_ImageWriter;
                       @Call_barcode_class packages_without_NumberError
                         ean13 "abc" tt]
                      (Exn "IllegalCharacterError"
                         "illegal character in the payload")
                      eq_refl eq_refl eq_refl _ eq_refl eq_refl eq_refl))).
  simpl. discriminate.
Defined.

(** X4 at work: twelve digits as EAN-13. *)
Lemma opened_image_witness :
  outcome_of (@generate_barcode packages "123456789012" "ean13" (PyInt 1) 0)
  = Ok (Some (ref_render "123456789012")).
Proof.
  exact (f_equal outcome_of
           (@opened_image_is_what_was_written packages "123456789012" "ean13"
              (PyInt 1) (PyFloat float_0_2) (PyInt 10) 0 ean13 tt
              (ean13, "123456789012") (ref_render "123456789012")
              (ref_render "123456789012")
              eq_refl eq_refl eq_refl eq_refl eq_refl eq_refl eq_refl)).
Defined.

(** X5 at work: a QR code of "hello" calls nothing on the barcode side. *)
Lemma kind_selects_witness :
  filter is_barcode_call
    (events_of (@main packages (form QR_Code "hello" ean13) 0)) = [].
Proof.
  exact (proj1 (proj1 (@kind_selects_the_adapter packages
                         (form QR_Code "hello" ean13) 0) eq_refl)).
Defined.

(** X7 at work: a run before any press of the button. *)
Lemma widgets_witness :
  @main packages
    {| form_code_type := Barcode; form_data := "12345";
       form_generate := false; form_barcode_type := ean13 |} 0
  = (form_events, Ok tt, 0).
Proof.
  exact (proj1 (@widgets_of_a_run packages
                  {| form_code_type := Barcode; form_data := "12345";
                     form_generate := false; form_barcode_type := ean13 |} 0)
           eq_refl).
Defined.

(** X3 at work: the scale [2 ^ 1024] is beyond every float. *)
Lemma scale_overflow_witness :
  @generate_barcode packages "123456789012" "ean13" (PyInt (2 ^ 1024)) 0
  = ([Call_get_barcode_class "ean13"; Call_ImageWriter;
      @Call_barcode_class packages ean13 "123456789012" tt],
     Raise (Exn "AttributeError"
              "module 'barcode.errors' has no attribute 'NumberError'"),
     0).
Proof.
  exact (proj2 (proj2 (proj2
           (proj2 (@scale_overflow_never_reaches_writer packages
                     "123456789012" "ean13" (PyInt (2 ^ 1024)) 0 ean13 tt
                     (ean13, "123456789012")
                     (Exn "OverflowError" "int too large to convert to float"))
              eq_refl eq_refl eq_refl eq_refl)))
           eq_refl eq_refl).
Defined.

(** X8 at work: a payload of 7090 digits as a QR code. *)
Lemma failed_qr_run_witness :
  filter is_error
    (events_of (@main packages (form QR_Code long_payload code128) 0))
  = [St_error "Error creating QR code: "; closing_error].
Proof.
  refine (proj1 (proj2 (@failed_qr_run_shows_two_messages packages
                          (form QR_Code long_payload code128) 0 0
                          (events_of (@generate_qrcode_try packages
                                        long_payload 2 0))
                          (Exn "DataOverflowError" "")
                          eq_refl _ eq_refl _))).
  - vm_compute. discriminate.
  - vm_compute. reflexivity.
Defined.

End FurtherRuns.
